(** * no-undefined-or-null-comparison

    A shallow embedding of [src/rules/noUndefinedOrNullComparisonRule.ts]
    and the properties of the rule: which operands are reported, in which
    order, at which location and with which message.

    The rule walks the syntax tree of a source file with [ts.forEachChild]
    and a recursive callback [cb]; the callback mutates the walk context
    by pushing failures.  The embedding threads the walk context through
    the traversal explicitly. *)

From Stdlib Require Import List String Bool Arith ZArith Lia Sorted.
Import ListNotations.
Open Scope string_scope.
Open Scope list_scope.

(** ** The TypeScript syntax tree, as far as the rule looks at it

    The tree comes from the TypeScript compiler, which is not part of the
    rule.  Of a node the rule uses: its kind, its children in source
    order, for a binary expression its operator token and its two
    operands, for an identifier its text, and its span. *)

Module ts.

(** Kinds of nodes without children: keywords, punctuation and literal
    tokens.  The list names the kinds that occur in the rule and in
    binary expressions; every other one is [OtherToken]. *)
Inductive TokenKind : Type :=
| EndOfFileToken
| NumericLiteral
| StringLiteral
| NullKeyword
| TrueKeyword
| FalseKeyword
| ThisKeyword
| InKeyword
| InstanceOfKeyword
| LessThanToken
| GreaterThanToken
| LessThanEqualsToken
| GreaterThanEqualsToken
| EqualsEqualsToken
| ExclamationEqualsToken
| EqualsEqualsEqualsToken
| ExclamationEqualsEqualsToken
| PlusToken
| MinusToken
| AsteriskToken
| SlashToken
| AmpersandAmpersandToken
| BarBarToken
| CommaToken
| EqualsToken
| PlusEqualsToken
| OtherToken (code : nat).

(** Kinds of nodes with children, other than binary expressions. *)
Inductive CompositeKind : Type :=
| ParenthesizedExpression
| PrefixUnaryExpression
| TypeOfExpression
| VoidExpression
| PropertyAccessExpression
| CallExpression
| ConditionalExpression
| ExpressionStatement
| VariableStatement
| IfStatement
| ReturnStatement
| Block
| FunctionDeclaration
| OtherComposite (code : nat).

(** [ts.SyntaxKind], the value of [node.kind]. *)
Inductive SyntaxKind : Type :=
| TokenOfKind (k : TokenKind)
| Identifier
| BinaryExpression
| CompositeOfKind (k : CompositeKind).

(** What [node.getStart(sourceFile)] and [node.getEnd()] return. *)
Record TextRange : Type := mkRange { start : nat; end_ : nat }.

(** [ts.Node].  An identifier carries its [text]; a binary expression
    its [left], [operatorToken] and [right]; the operator token is a
    node of its own, as in the TypeScript object model. *)
#[local] Set Warnings "-register-all".
Inductive Node : Type :=
| TokenNode (k : TokenKind) (range : TextRange)
| IdentifierNode (text : string) (range : TextRange)
| BinaryExpressionNode (left_ operatorToken right_ : Node) (range : TextRange)
| CompositeNode (k : CompositeKind) (children : list Node) (range : TextRange).

(** [ts.SourceFile]: the statements, then the end-of-file token. *)
Record SourceFile : Type := mkSourceFile {
  statements : list Node;
  endOfFileToken : TextRange
}.

Definition kind (node : Node) : SyntaxKind :=
  match node with
  | TokenNode k _ => TokenOfKind k
  | IdentifierNode _ _ => Identifier
  | BinaryExpressionNode _ _ _ _ => BinaryExpression
  | CompositeNode k _ _ => CompositeOfKind k
  end.

Definition range (node : Node) : TextRange :=
  match node with
  | TokenNode _ r | IdentifierNode _ r
  | BinaryExpressionNode _ _ _ r | CompositeNode _ _ r => r
  end.

Definition getStart (node : Node) : nat := start (range node).
Definition getEnd (node : Node) : nat := end_ (range node).

Definition TokenKind_eq_dec (a b : TokenKind) : {a = b} + {a <> b}.
Proof. decide equality. apply Nat.eq_dec. Defined.

Definition CompositeKind_eq_dec (a b : CompositeKind) : {a = b} + {a <> b}.
Proof. decide equality. apply Nat.eq_dec. Defined.

Definition SyntaxKind_eq_dec (a b : SyntaxKind) : {a = b} + {a <> b}.
Proof.
  decide equality; [apply TokenKind_eq_dec | apply CompositeKind_eq_dec].
Defined.

(** [a.kind === b] *)
Definition kind_is (node : Node) (k : SyntaxKind) : bool :=
  if SyntaxKind_eq_dec (kind node) k then true else false.

(** [ts.isIdentifier(node)] *)
Definition isIdentifier (node : Node) : bool := kind_is node Identifier.

(** [node.text], read after [ts.isIdentifier(node)] narrowed the node. *)
Definition text_of (node : Node) : option string :=
  match node with
  | IdentifierNode t _ => Some t
  | _ => None
  end.

(** [ts.forEachChild(node, cbNode)]: calls [cbNode] on each child of
    [node] in source order and stops at the first call that returns a
    truthy value, which it returns; [undefined] ([None]) otherwise.
    The callback runs in a state of type [S]. *)
Section ForEachChild.
Context {S T : Type}.
Variable cbNode : Node -> S -> option T * S.

Definition visitNode (n : Node) : S -> option T * S := cbNode n.

Definition orElse (a b : S -> option T * S) : S -> option T * S :=
  fun s =>
    match a s with
    | (Some t, s') => (Some t, s')
    | (None, s') => b s'
    end.

Fixpoint visitNodes (nodes : list Node) : S -> option T * S :=
  match nodes with
  | [] => fun s => (None, s)
  | n :: rest => orElse (visitNode n) (visitNodes rest)
  end.

Definition forEachChild (node : Node) : S -> option T * S :=
  match node with
  | TokenNode _ _ => fun s => (None, s)
  | IdentifierNode _ _ => fun s => (None, s)
  | BinaryExpressionNode left_ operatorToken right_ _ =>
      orElse (visitNode left_)
        (orElse (visitNode operatorToken) (visitNode right_))
  | CompositeNode _ children _ => visitNodes children
  end.

Definition forEachChildOfSourceFile (sf : SourceFile) : S -> option T * S :=
  orElse (visitNodes (statements sf))
         (visitNode (TokenNode EndOfFileToken (endOfFileToken sf))).
End ForEachChild.

End ts.

(** [isBinaryExpression] of tsutils: [node.kind === ts.SyntaxKind.BinaryExpression]. *)
Definition isBinaryExpression (node : ts.Node) : bool :=
  ts.kind_is node ts.BinaryExpression.

(** ** The parts of the lint framework the rule calls *)

Module Lint.

Record EqualsKind : Type := mkEqualsKind { isPositive : bool; isStrict : bool }.

(** Modelled from the spec: [Lint.getEqualsKind] is defined in the
    framework's utilities, outside the rule's file.  The spec names the
    equality-family operators: [==], [!=], [===] and [!==]; for the token
    of any other operator the result is [undefined].  The rule only tests
    whether the result is defined. *)
Definition getEqualsKind (node : ts.Node) : option EqualsKind :=
  match ts.kind node with
  | ts.TokenOfKind ts.EqualsEqualsToken => Some (mkEqualsKind true false)
  | ts.TokenOfKind ts.EqualsEqualsEqualsToken => Some (mkEqualsKind true true)
  | ts.TokenOfKind ts.ExclamationEqualsToken => Some (mkEqualsKind false false)
  | ts.TokenOfKind ts.ExclamationEqualsEqualsToken => Some (mkEqualsKind false true)
  | _ => None
  end.

(** Modelled from the spec: a Finding ([Lint.RuleFailure]) is a source
    span and a message. *)
Record RuleFailure : Type := mkRuleFailure {
  startPosition : nat;
  endPosition : nat;
  failure : string
}.

(** Modelled from the spec: [Lint.WalkContext<T>] holds the source file
    and the options of one scan, both read-only, and the failures
    reported so far. *)
Record WalkContext (T : Type) : Type := mkWalkContext {
  sourceFile : ts.SourceFile;
  options : T;
  failures : list RuleFailure
}.
Arguments mkWalkContext {T}.
Arguments sourceFile {T}.
Arguments options {T}.
Arguments failures {T}.

(** Modelled from the spec: [ctx.addFailure(start, end, message)] adds a
    Finding after the ones reported so far; the output of a scan is the
    sequence of its Findings in the order of their emission. *)
Definition addFailure {T} (ctx : WalkContext T) (start end_ : nat)
    (message : string) : WalkContext T :=
  mkWalkContext (sourceFile ctx) (options ctx)
    (failures ctx ++ [mkRuleFailure start end_ message]).

(** Modelled from the spec: [ctx.addFailureAtNode(node, message)] reports
    a Finding whose location is the source span of [node]. *)
Definition addFailureAtNode {T} (ctx : WalkContext T) (node : ts.Node)
    (message : string) : WalkContext T :=
  addFailure ctx (ts.getStart node) (ts.getEnd node) message.

(** Modelled from the spec: [applyWithFunction] runs the walk function on
    a fresh context and returns the failures it collected. *)
Definition applyWithFunction {T R}
    (sf : ts.SourceFile) (walkFn : WalkContext T -> R * WalkContext T)
    (opts : T) : list RuleFailure :=
  failures (snd (walkFn (mkWalkContext sf opts []))).

End Lint.

(** ** The rule *)

Definition OPTION_ALLOW_NULL_CHECK : string := "allow-null-check".
Definition OPTION_ALLOW_UNDEFINED_CHECK : string := "allow-undefined-check".

Record Options : Type := mkOptions {
  allowNull : bool;
  allowUndefined : bool
}.

Inductive InvalidOperand : Type := Both | Left | Right | None_.

Definition InvalidOperand_eqb (a b : InvalidOperand) : bool :=
  match a, b with
  | Both, Both | Left, Left | Right, Right | None_, None_ => true
  | _, _ => false
  end.

(** [node.text === 'undefined'] *)
Definition text_is (node : ts.Node) (s : string) : bool :=
  match ts.text_of node with
  | Some t => String.eqb t s
  | None => false
  end.

Definition getInvalidOperands (nodeLeft nodeRight : ts.Node) (options : Options)
    : InvalidOperand :=
  let leftInvalid := false in
  let rightInvalid := false in
  let leftInvalid :=
    if (ts.isIdentifier nodeLeft && text_is nodeLeft "undefined"
          && negb (allowUndefined options))
       || (ts.kind_is nodeLeft (ts.TokenOfKind ts.NullKeyword)
          && negb (allowNull options))
    then true else leftInvalid in
  let rightInvalid :=
    if (ts.isIdentifier nodeRight && text_is nodeRight "undefined"
          && negb (allowUndefined options))
       || (ts.kind_is nodeRight (ts.TokenOfKind ts.NullKeyword)
          && negb (allowNull options))
    then true else rightInvalid in
  if leftInvalid && rightInvalid then Both
  else if leftInvalid then Left
  else if rightInvalid then Right
  else None_.

(** [Rule.FAILURE_STRING_FACTORY] *)
Definition FAILURE_STRING_FACTORY (node : ts.Node) : string :=
  String.append "Comparison operand is "
    (if ts.kind_is node (ts.TokenOfKind ts.NullKeyword)
     then "null" else "undefined").

(** [typeof x !== "undefined"] *)
Definition is_defined {A} (x : option A) : bool :=
  match x with Some _ => true | None => false end.

(** The first half of the callback of [walk]: the test of the visited node
    and the failures it adds.  The pattern gives access to the fields that
    [isBinaryExpression] narrows the node to. *)
Definition check (node : ts.Node) (ctx : Lint.WalkContext Options)
    : Lint.WalkContext Options :=
  match node with
  | ts.BinaryExpressionNode left_ operatorToken right_ _ =>
      if isBinaryExpression node
         && is_defined (Lint.getEqualsKind operatorToken)
      then
        let invalidOperands := getInvalidOperands left_ right_ (Lint.options ctx) in
        let ctx :=
          if InvalidOperand_eqb invalidOperands Both
             || InvalidOperand_eqb invalidOperands Left
          then Lint.addFailureAtNode ctx left_ (FAILURE_STRING_FACTORY left_)
          else ctx in
        if InvalidOperand_eqb invalidOperands Both
           || InvalidOperand_eqb invalidOperands Right
        then Lint.addFailureAtNode ctx right_ (FAILURE_STRING_FACTORY right_)
        else ctx
      else ctx
  | _ => ctx
  end.

(** The callback of [walk]: [check], then [return ts.forEachChild(node, cb)].
    A truthy result would stop the enclosing [forEachChild]. *)
Fixpoint cb (node : ts.Node) (ctx : Lint.WalkContext Options) {struct node}
    : option unit * Lint.WalkContext Options :=
  ts.forEachChild cb node (check node ctx).

Definition walk (ctx : Lint.WalkContext Options)
    : option unit * Lint.WalkContext Options :=
  ts.forEachChildOfSourceFile cb (Lint.sourceFile ctx) ctx.

(** [array.indexOf(x)]: the first index of [x], or [-1]. *)
Fixpoint indexOf (array : list string) (x : string) : Z :=
  match array with
  | [] => (-1)%Z
  | y :: rest =>
      if String.eqb y x then 0%Z
      else let i := indexOf rest x in
           if (i =? -1)%Z then (-1)%Z else (i + 1)%Z
  end.

Module Rule.

Definition optionsOf (ruleArguments : list string) : Options :=
  {| allowNull :=
       negb (indexOf ruleArguments OPTION_ALLOW_NULL_CHECK =? -1)%Z;
     allowUndefined :=
       negb (indexOf ruleArguments OPTION_ALLOW_UNDEFINED_CHECK =? -1)%Z |}.

Definition apply (ruleArguments : list string) (sourceFile : ts.SourceFile)
    : list Lint.RuleFailure :=
  Lint.applyWithFunction sourceFile walk (optionsOf ruleArguments).

End Rule.

(** The scan of the spec: a syntax tree and a configuration give a
    sequence of findings. *)
Definition scan (root : ts.SourceFile) (config : Options)
    : list Lint.RuleFailure :=
  Lint.applyWithFunction root walk config.

(** The default configuration: no rule argument. *)
Definition defaultOptions : Options := Rule.optionsOf [].

(** ** The words of the spec

    The definitions of this part follow the spec, not the code: the nodes
    of a tree in pre-order, the operands of its binary expressions, and
    the condition under which an operand is reported.  The theorems below
    compare them with the code. *)

Definition children (node : ts.Node) : list ts.Node :=
  match node with
  | ts.TokenNode _ _ | ts.IdentifierNode _ _ => []
  | ts.BinaryExpressionNode l op r _ => [l; op; r]
  | ts.CompositeNode _ cs _ => cs
  end.

(** A node and its descendants, parent before children, children in
    source order. *)
Fixpoint preorder (node : ts.Node) : list ts.Node :=
  node ::
  match node with
  | ts.TokenNode _ _ | ts.IdentifierNode _ _ => []
  | ts.BinaryExpressionNode l op r _ => preorder l ++ preorder op ++ preorder r
  | ts.CompositeNode _ cs _ => flat_map preorder cs
  end.

(** The descendants of the root, in pre-order; the root itself is not one
    of them. *)
Definition nodes (root : ts.SourceFile) : list ts.Node :=
  flat_map preorder (ts.statements root)
  ++ [ts.TokenNode ts.EndOfFileToken (ts.endOfFileToken root)].

(** The number of nodes of a tree. *)
Fixpoint size (node : ts.Node) : nat :=
  match node with
  | ts.TokenNode _ _ | ts.IdentifierNode _ _ => 1
  | ts.BinaryExpressionNode l op r _ => 1 + size l + size op + size r
  | ts.CompositeNode _ cs _ => 1 + list_sum (map size cs)
  end.

Definition sizeOfSourceFile (root : ts.SourceFile) : nat :=
  list_sum (map size (ts.statements root)) + 1.

Definition isNullLiteral (node : ts.Node) : bool :=
  match node with
  | ts.TokenNode ts.NullKeyword _ => true
  | _ => false
  end.

Definition isUndefinedIdentifier (node : ts.Node) : bool :=
  match node with
  | ts.IdentifierNode t _ => String.eqb t "undefined"
  | _ => false
  end.

(** [==], [!=], [===], [!==] *)
Definition isEqualityOperator (operatorToken : ts.Node) : bool :=
  match operatorToken with
  | ts.TokenNode ts.EqualsEqualsToken _
  | ts.TokenNode ts.ExclamationEqualsToken _
  | ts.TokenNode ts.EqualsEqualsEqualsToken _
  | ts.TokenNode ts.ExclamationEqualsEqualsToken _ => true
  | _ => false
  end.

(** An operand is invalid when it is [null] and null checks are not
    allowed, or the identifier [undefined] and undefined checks are not
    allowed. *)
Definition invalidOperand (config : Options) (operand : ts.Node) : bool :=
  (isNullLiteral operand && negb (allowNull config))
  || (isUndefinedIdentifier operand && negb (allowUndefined config)).

(** The finding on an operand: its span, and the message for its value. *)
Definition findingOn (operand : ts.Node) : Lint.RuleFailure :=
  Lint.mkRuleFailure (ts.getStart operand) (ts.getEnd operand)
    (if isNullLiteral operand then "Comparison operand is null"
     else "Comparison operand is undefined").

(** An operand of a binary expression, with the operator of the
    expression. *)
Record Occurrence : Type := mkOccurrence {
  operatorOf : ts.Node;
  operand : ts.Node
}.

Definition operandsOf (node : ts.Node) : list Occurrence :=
  match node with
  | ts.BinaryExpressionNode l op r _ => [mkOccurrence op l; mkOccurrence op r]
  | _ => []
  end.

(** The invariant of the spec: the operand is [null] or [undefined], the
    flag of its value is false, and the operator is of the equality
    family. *)
Definition shouldReport (config : Options) (o : Occurrence) : bool :=
  invalidOperand config (operand o) && isEqualityOperator (operatorOf o).

(** The findings of one visited node. *)
Definition findingsAt (config : Options) (node : ts.Node)
    : list Lint.RuleFailure :=
  map (fun o => findingOn (operand o))
      (filter (shouldReport config) (operandsOf node)).

(** The findings of a list of nodes, in the order of the list. *)
Definition findingsOf (config : Options) (ns : list ts.Node)
    : list Lint.RuleFailure :=
  flat_map (findingsAt config) ns.

(** The walk context with more failures. *)
Definition extend {T} (ctx : Lint.WalkContext T) (fs : list Lint.RuleFailure)
    : Lint.WalkContext T :=
  Lint.mkWalkContext (Lint.sourceFile ctx) (Lint.options ctx)
    (Lint.failures ctx ++ fs).

(** ** Induction on syntax trees *)

Section NodeInduction.
Variable P : ts.Node -> Prop.
Hypothesis P_token : forall k rg, P (ts.TokenNode k rg).
Hypothesis P_identifier : forall t rg, P (ts.IdentifierNode t rg).
Hypothesis P_binary : forall l op r rg,
  P l -> P op -> P r -> P (ts.BinaryExpressionNode l op r rg).
Hypothesis P_composite : forall k cs rg,
  Forall P cs -> P (ts.CompositeNode k cs rg).

Fixpoint Node_induction (node : ts.Node) : P node :=
  match node with
  | ts.TokenNode k rg => P_token k rg
  | ts.IdentifierNode t rg => P_identifier t rg
  | ts.BinaryExpressionNode l op r rg =>
      P_binary l op r rg
        (Node_induction l) (Node_induction op) (Node_induction r)
  | ts.CompositeNode k cs rg =>
      P_composite k cs rg
        ((fix all (ns : list ts.Node) : Forall P ns :=
            match ns with
            | [] => Forall_nil P
            | n :: rest => Forall_cons n (Node_induction n) (all rest)
            end) cs)
  end.
End NodeInduction.

(** The operands of all binary expressions of the tree: in pre-order of
    the expressions, the left operand of each before its right operand. *)
Definition operandOccurrences (root : ts.SourceFile) : list Occurrence :=
  flat_map operandsOf (nodes root).

(** The failures the callback reports on a subtree, started on a context
    without failures. *)
Definition failuresUnder (ctx : Lint.WalkContext Options) (node : ts.Node)
    : list Lint.RuleFailure :=
  Lint.failures
    (snd (cb node (Lint.mkWalkContext (Lint.sourceFile ctx) (Lint.options ctx) []))).

(** The rule applied two times, one after the other. *)
Definition applyTwice (ruleArguments : list string) (root : ts.SourceFile)
    : list Lint.RuleFailure * list Lint.RuleFailure :=
  let first := Rule.apply ruleArguments root in
  let second := Rule.apply ruleArguments root in
  (first, second).

(** ** The order of the findings

    A finding is attributed to a position: the index, in the pre-order
    list of the nodes, of the binary expression it comes from, and the
    side of the operand. *)

Inductive Side : Type := OnLeft | OnRight.

Definition operandAt (side : Side) (node : ts.Node) : option ts.Node :=
  match node with
  | ts.BinaryExpressionNode l _ r _ =>
      Some (match side with OnLeft => l | OnRight => r end)
  | _ => None
  end.

(** Earlier expression first; in one expression, left before right. *)
Definition position_lt (p q : nat * Side) : Prop :=
  fst p < fst q \/ (fst p = fst q /\ snd p = OnLeft /\ snd q = OnRight).

Definition numbered {A} (from : nat) (l : list A) : list (nat * A) :=
  combine (seq from (List.length l)) l.

Definition sidesReported (config : Options) (node : ts.Node) : list Side :=
  match node with
  | ts.BinaryExpressionNode l op r _ =>
      (if shouldReport config (mkOccurrence op l) then [OnLeft] else [])
      ++ (if shouldReport config (mkOccurrence op r) then [OnRight] else [])
  | _ => []
  end.

Definition positionsAt (config : Options) (e : nat * ts.Node)
    : list (nat * Side) :=
  map (pair (fst e)) (sidesReported config (snd e)).

(** The positions of the operands to report, in pre-order. *)
Definition reportedPositions (config : Options) (root : ts.SourceFile)
    : list (nat * Side) :=
  flat_map (positionsAt config) (numbered 0 (nodes root)).

(** The finding on the operand at a position of the tree. *)
Definition findingAtPosition (root : ts.SourceFile) (p : nat * Side)
    : option Lint.RuleFailure :=
  match nth_error (nodes root) (fst p) with
  | Some e => option_map findingOn (operandAt (snd p) e)
  | None => None
  end.

(** ** The walk with a log of its visits

    The callback of [walk] again, in a state that also records each node
    the callback is called on.  The log is not part of the rule; it makes
    the visits of the traversal a value to reason about. *)

Definition Logged : Type := (Lint.WalkContext Options * list ts.Node)%type.

Fixpoint cb_logged (node : ts.Node) (st : Logged) {struct node}
    : option unit * Logged :=
  ts.forEachChild cb_logged node (check node (fst st), snd st ++ [node]).

Definition walk_logged (st : Logged) : option unit * Logged :=
  ts.forEachChildOfSourceFile cb_logged (Lint.sourceFile (fst st)) st.

(** What the callback does on a subtree: it returns [undefined] and adds
    the findings of the nodes of the subtree, in pre-order. *)
Definition cb_visits (node : ts.Node) : Prop :=
  forall ctx,
    cb node ctx
    = (None, extend ctx (findingsOf (Lint.options ctx) (preorder node))).

(** The same for the callback with the log. *)
Definition cb_logged_visits (node : ts.Node) : Prop :=
  forall st,
    cb_logged node st = (None, (snd (cb node (fst st)), snd st ++ preorder node)).

Definition isNullMessage (f : Lint.RuleFailure) : bool :=
  String.eqb (Lint.failure f) "Comparison operand is null".

Definition isUndefinedMessage (f : Lint.RuleFailure) : bool :=
  String.eqb (Lint.failure f) "Comparison operand is undefined".

(** ** Programs of the spec's examples *)

Definition rg (a b : nat) : ts.TextRange := ts.mkRange a b.

(** A source file of one expression statement. *)
Definition program (e : ts.Node) (eof : nat) : ts.SourceFile :=
  ts.mkSourceFile
    [ts.CompositeNode ts.ExpressionStatement [e] (ts.range e)]
    (rg eof eof).

Definition binary (l : ts.Node) (k : ts.TokenKind) (opr : ts.TextRange)
    (r : ts.Node) : ts.Node :=
  ts.BinaryExpressionNode l (ts.TokenNode k opr) r
    (ts.mkRange (ts.getStart l) (ts.getEnd r)).

Definition null_ (r : ts.TextRange) : ts.Node := ts.TokenNode ts.NullKeyword r.
Definition ident (name : string) (r : ts.TextRange) : ts.Node :=
  ts.IdentifierNode name r.
Definition paren (e : ts.Node) : ts.Node :=
  ts.CompositeNode ts.ParenthesizedExpression [e]
    (ts.mkRange (ts.getStart e - 1) (ts.getEnd e + 1)).

(** ** The metadata of the rule *)

Module Metadata.

(** The [options] entry: the arguments are an array of strings of [enum],
    with [minLength] and [maxLength]. *)
Record OptionsSchema : Type := mkOptionsSchema {
  enum : list string;
  minLength : nat;
  maxLength : nat
}.

Record IRuleMetadata : Type := mkIRuleMetadata {
  ruleName : string;
  description : string;
  options : OptionsSchema;
  optionExamples : list (list string);
  type : string;
  typescriptOnly : bool
}.

(** [Rule.metadata].  An option example is [true] or [[true, ...]]: the
    rule enabled, then the rule arguments; each example is given by its
    rule arguments. *)
Definition metadata : IRuleMetadata :=
  {| ruleName := "no-undefined-or-null-comparison";
     description := "Disallows comparisons to `undefined` or `null`.";
     options :=
       {| enum := [OPTION_ALLOW_NULL_CHECK; OPTION_ALLOW_UNDEFINED_CHECK];
          minLength := 0;
          maxLength := 2 |};
     optionExamples :=
       [ []; ["allow-null-check"]; ["allow-undefined-check"] ];
     type := "functionality";
     typescriptOnly := false |}.

(** Rule arguments as the [options] entry describes them. *)
Definition conforms (ruleArguments : list string) : Prop :=
  Forall (fun a => In a (enum (options metadata))) ruleArguments
  /\ minLength (options metadata) <= List.length ruleArguments
  /\ List.length ruleArguments <= maxLength (options metadata).

End Metadata.

(** ** More words for the properties of the rule *)

(** The verdict with the two operands exchanged. *)
Definition mirror (v : InvalidOperand) : InvalidOperand :=
  match v with
  | Both => Both
  | Left => Right
  | Right => Left
  | None_ => None_
  end.

(** The tests of [walk] on the verdict: is the left operand reported, is
    the right one. *)
Definition reportsLeft (v : InvalidOperand) : bool :=
  InvalidOperand_eqb v Both || InvalidOperand_eqb v Left.

Definition reportsRight (v : InvalidOperand) : bool :=
  InvalidOperand_eqb v Both || InvalidOperand_eqb v Right.

(** The test of [walk] on a visited node. *)
Definition isEqualityExpression (node : ts.Node) : bool :=
  match node with
  | ts.BinaryExpressionNode _ op _ _ =>
      isBinaryExpression node && is_defined (Lint.getEqualsKind op)
  | _ => false
  end.

(** The same tree with every span changed by [f]. *)
Fixpoint mapRanges (f : ts.TextRange -> ts.TextRange) (node : ts.Node)
    : ts.Node :=
  match node with
  | ts.TokenNode k r => ts.TokenNode k (f r)
  | ts.IdentifierNode t r => ts.IdentifierNode t (f r)
  | ts.BinaryExpressionNode l op r rg =>
      ts.BinaryExpressionNode (mapRanges f l) (mapRanges f op) (mapRanges f r)
        (f rg)
  | ts.CompositeNode k cs r => ts.CompositeNode k (map (mapRanges f) cs) (f r)
  end.

Definition mapRangesOfSourceFile (f : ts.TextRange -> ts.TextRange)
    (root : ts.SourceFile) : ts.SourceFile :=
  ts.mkSourceFile (map (mapRanges f) (ts.statements root))
    (f (ts.endOfFileToken root)).

Definition mapFinding (f : ts.TextRange -> ts.TextRange) (x : Lint.RuleFailure)
    : Lint.RuleFailure :=
  let r := f (ts.mkRange (Lint.startPosition x) (Lint.endPosition x)) in
  Lint.mkRuleFailure (ts.start r) (ts.end_ r) (Lint.failure x).

(** All positions moved by [d] characters. *)
Definition shiftBy (d : nat) (r : ts.TextRange) : ts.TextRange :=
  ts.mkRange (ts.start r + d) (ts.end_ r + d).

(** ** The code against the words of the spec, node by node *)

Lemma kind_is_null (node : ts.Node) :
  ts.kind_is node (ts.TokenOfKind ts.NullKeyword) = isNullLiteral node.
Proof.
  unfold ts.kind_is.
  destruct (ts.SyntaxKind_eq_dec _ _) as [E | E].
  - destruct node as [k ?| | |]; try discriminate E.
    simpl in E. injection E as ->. reflexivity.
  - destruct node as [k ?| | |]; try reflexivity.
    destruct k; try reflexivity. now contradiction E.
Qed.

Lemma identifier_undefined (node : ts.Node) :
  ts.isIdentifier node && text_is node "undefined" = isUndefinedIdentifier node.
Proof. destruct node; reflexivity. Qed.

Lemma getEqualsKind_defined (op : ts.Node) :
  is_defined (Lint.getEqualsKind op) = isEqualityOperator op.
Proof.
  destruct op as [k ?| | |]; try reflexivity.
  destruct k; reflexivity.
Qed.

Lemma getInvalidOperands_spec (l r : ts.Node) (config : Options) :
  getInvalidOperands l r config =
  match invalidOperand config l, invalidOperand config r with
  | true, true => Both
  | true, false => Left
  | false, true => Right
  | false, false => None_
  end.
Proof.
  unfold getInvalidOperands, invalidOperand.
  rewrite !kind_is_null, !identifier_undefined.
  rewrite (orb_comm (isNullLiteral l && _)), (orb_comm (isNullLiteral r && _)).
  destruct (_ || _), (_ || _); reflexivity.
Qed.

Lemma FAILURE_STRING_FACTORY_spec (node : ts.Node) :
  FAILURE_STRING_FACTORY node = Lint.failure (findingOn node).
Proof.
  unfold FAILURE_STRING_FACTORY. rewrite kind_is_null.
  simpl. destruct (isNullLiteral node); reflexivity.
Qed.

Lemma addFailureAtNode_spec (ctx : Lint.WalkContext Options) (node : ts.Node) :
  Lint.addFailureAtNode ctx node (FAILURE_STRING_FACTORY node)
  = extend ctx [findingOn node].
Proof.
  unfold Lint.addFailureAtNode, Lint.addFailure, extend.
  rewrite FAILURE_STRING_FACTORY_spec. reflexivity.
Qed.

Lemma extend_nil {T} (ctx : Lint.WalkContext T) : extend ctx [] = ctx.
Proof. destruct ctx. unfold extend. simpl. now rewrite app_nil_r. Qed.

Lemma extend_extend {T} (ctx : Lint.WalkContext T) fs gs :
  extend (extend ctx fs) gs = extend ctx (fs ++ gs).
Proof. unfold extend. simpl. now rewrite app_assoc. Qed.

Lemma check_spec (node : ts.Node) (ctx : Lint.WalkContext Options) :
  check node ctx = extend ctx (findingsAt (Lint.options ctx) node).
Proof.
  destruct node as [| |l op r rg|]; simpl; try (now rewrite extend_nil).
  unfold findingsAt, shouldReport. simpl.
  rewrite getEqualsKind_defined, getInvalidOperands_spec.
  destruct (isEqualityOperator op); simpl;
    rewrite ?andb_false_r; simpl; [|now rewrite extend_nil].
  rewrite !andb_true_r.
  destruct (invalidOperand _ l), (invalidOperand _ r); simpl;
    rewrite ?addFailureAtNode_spec, ?extend_extend, ?extend_nil; reflexivity.
Qed.

(** ** The traversal *)

Lemma options_extend {T} (ctx : Lint.WalkContext T) fs :
  Lint.options (extend ctx fs) = Lint.options ctx.
Proof. reflexivity. Qed.

Lemma findingsOf_app (config : Options) (xs ys : list ts.Node) :
  findingsOf config (xs ++ ys) = findingsOf config xs ++ findingsOf config ys.
Proof. apply flat_map_app. Qed.

Lemma findingsOf_cons (config : Options) (n : ts.Node) (ns : list ts.Node) :
  findingsOf config (n :: ns) = findingsAt config n ++ findingsOf config ns.
Proof. reflexivity. Qed.

Lemma visitNodes_cb (cs : list ts.Node) :
  Forall cb_visits cs ->
  forall ctx,
    ts.visitNodes cb cs ctx
    = (None, extend ctx (findingsOf (Lint.options ctx) (flat_map preorder cs))).
Proof.
  induction 1 as [|c cs Hc _ IH]; intros ctx; simpl.
  - now rewrite extend_nil.
  - unfold ts.orElse, ts.visitNode. rewrite Hc, IH.
    rewrite options_extend, extend_extend, findingsOf_app. reflexivity.
Qed.

Lemma cb_unfold (node : ts.Node) (ctx : Lint.WalkContext Options) :
  cb node ctx = ts.forEachChild cb node (check node ctx).
Proof. destruct node; reflexivity. Qed.

Lemma cb_spec (node : ts.Node) : cb_visits node.
Proof.
  induction node as [k r|t r|l op r r0 IHl IHop IHr|k cs r IH]
    using Node_induction; intros ctx; rewrite cb_unfold, check_spec.
  - reflexivity.
  - reflexivity.
  - cbn [ts.forEachChild preorder]. unfold ts.orElse, ts.visitNode.
    rewrite IHl, IHop, IHr. rewrite !options_extend, !extend_extend.
    change (findingsOf (Lint.options ctx) (?n :: ?ns))
      with (findingsAt (Lint.options ctx) n ++ findingsOf (Lint.options ctx) ns).
    rewrite !findingsOf_app. reflexivity.
  - cbn [ts.forEachChild preorder].
    rewrite (visitNodes_cb cs IH). rewrite options_extend, extend_extend.
    reflexivity.
Qed.

Lemma walk_spec (ctx : Lint.WalkContext Options) :
  walk ctx
  = (None, extend ctx (findingsOf (Lint.options ctx) (nodes (Lint.sourceFile ctx)))).
Proof.
  unfold walk, ts.forEachChildOfSourceFile, ts.orElse, ts.visitNode, nodes.
  rewrite visitNodes_cb by (apply Forall_forall; intros; apply cb_spec).
  rewrite cb_spec. rewrite options_extend, extend_extend, findingsOf_app.
  reflexivity.
Qed.

Lemma scan_spec (root : ts.SourceFile) (config : Options) :
  scan root config = findingsOf config (nodes root).
Proof.
  unfold scan, Lint.applyWithFunction. rewrite walk_spec. reflexivity.
Qed.

(** ** The rule on small programs *)

Example a_eq_null_one_finding :
  Rule.apply [] (program (binary (ident "a" (rg 0 1)) ts.EqualsEqualsToken
                            (rg 2 4) (null_ (rg 5 9))) 9)
  = [Lint.mkRuleFailure 5 9 "Comparison operand is null"].
Proof. reflexivity. Qed.

Example null_eq_a_one_finding :
  Rule.apply [] (program (binary (null_ (rg 0 4)) ts.EqualsEqualsToken
                            (rg 5 7) (ident "a" (rg 8 9))) 9)
  = [Lint.mkRuleFailure 0 4 "Comparison operand is null"].
Proof. reflexivity. Qed.

Example a_ne_undefined_one_finding :
  Rule.apply [] (program (binary (ident "a" (rg 0 1)) ts.ExclamationEqualsToken
                            (rg 2 4) (ident "undefined" (rg 5 14))) 14)
  = [Lint.mkRuleFailure 5 14 "Comparison operand is undefined"].
Proof. reflexivity. Qed.

Example undefined_eqeqeq_a_one_finding :
  Rule.apply [] (program (binary (ident "undefined" (rg 0 9))
                            ts.EqualsEqualsEqualsToken
                            (rg 10 13) (ident "a" (rg 14 15))) 15)
  = [Lint.mkRuleFailure 0 9 "Comparison operand is undefined"].
Proof. reflexivity. Qed.

Example a_eq_b_no_finding :
  Rule.apply [] (program (binary (ident "a" (rg 0 1))
                            ts.ExclamationEqualsEqualsToken
                            (rg 2 5) (ident "b" (rg 6 7))) 7)
  = [].
Proof. reflexivity. Qed.

(** [typeof undefined == a] and [window.undefined == a]: the operand is not
    the bare identifier. *)
Example typeof_undefined_no_finding :
  Rule.apply []
    (program (binary (ts.CompositeNode ts.TypeOfExpression
                        [ident "undefined" (rg 7 16)] (rg 0 16))
                ts.EqualsEqualsToken (rg 17 19) (ident "a" (rg 20 21))) 21)
  = [].
Proof. reflexivity. Qed.

Example property_named_undefined_no_finding :
  Rule.apply []
    (program (binary (ts.CompositeNode ts.PropertyAccessExpression
                        [ident "window" (rg 0 6); ident "undefined" (rg 7 16)]
                        (rg 0 16))
                ts.EqualsEqualsToken (rg 17 19) (ident "a" (rg 20 21))) 21)
  = [].
Proof. reflexivity. Qed.

(** Both flags at once. *)
Example both_flags_no_finding :
  Rule.apply [OPTION_ALLOW_UNDEFINED_CHECK; OPTION_ALLOW_NULL_CHECK]
    (program (binary (null_ (rg 0 4)) ts.EqualsEqualsToken
                (rg 5 7) (ident "undefined" (rg 8 17))) 17)
  = [].
Proof. reflexivity. Qed.

(** ** Which operands are reported *)

Lemma findingsOf_occurrences (config : Options) (ns : list ts.Node) :
  findingsOf config ns
  = map (fun o => findingOn (operand o))
        (filter (shouldReport config) (flat_map operandsOf ns)).
Proof.
  induction ns as [|n ns IH]; [reflexivity|].
  simpl. rewrite filter_app, map_app, <- IH. reflexivity.
Qed.

Lemma isEqualityOperator_kinds (op : ts.Node) :
  isEqualityOperator op = true <->
  (ts.kind op = ts.TokenOfKind ts.EqualsEqualsToken
   \/ ts.kind op = ts.TokenOfKind ts.ExclamationEqualsToken
   \/ ts.kind op = ts.TokenOfKind ts.EqualsEqualsEqualsToken
   \/ ts.kind op = ts.TokenOfKind ts.ExclamationEqualsEqualsToken).
Proof.
  split.
  - destruct op as [k ?| | |]; try discriminate.
    destruct k; try discriminate; simpl; auto.
  - destruct op as [k ?| | |]; simpl;
      intros [E|[E|[E|E]]]; try discriminate E;
      injection E as ->; reflexivity.
Qed.

(** C1: for every syntax tree and configuration, the findings of the scan
    are, in order, the findings on exactly those operands of the binary
    expressions of the tree that are the null literal or the identifier
    [undefined], with the allowance flag of that value false, under one of
    the operators [==], [!=], [===], [!==]: no such operand is left out and
    no other operand is reported. *)
Theorem C1_reported_iff_invalid_operand_of_equality
    (root : ts.SourceFile) (config : Options) (ruleArguments : list string) :
  scan root config
  = map (fun o => findingOn (operand o))
        (filter (shouldReport config) (operandOccurrences root))
  /\ Rule.apply ruleArguments root
    = map (fun o => findingOn (operand o))
          (filter (shouldReport (Rule.optionsOf ruleArguments))
                  (operandOccurrences root))
  /\ forall o : Occurrence,
       shouldReport config o = true <->
       ((isNullLiteral (operand o) = true /\ allowNull config = false)
        \/ (isUndefinedIdentifier (operand o) = true
            /\ allowUndefined config = false))
       /\ (ts.kind (operatorOf o) = ts.TokenOfKind ts.EqualsEqualsToken
           \/ ts.kind (operatorOf o) = ts.TokenOfKind ts.ExclamationEqualsToken
           \/ ts.kind (operatorOf o) = ts.TokenOfKind ts.EqualsEqualsEqualsToken
           \/ ts.kind (operatorOf o)
              = ts.TokenOfKind ts.ExclamationEqualsEqualsToken).
Proof.
  split; [|split].
  - rewrite scan_spec. apply findingsOf_occurrences.
  - unfold Rule.apply. fold (scan root (Rule.optionsOf ruleArguments)).
    rewrite scan_spec. apply findingsOf_occurrences.
  - intros o. unfold shouldReport, invalidOperand.
    rewrite andb_true_iff, orb_true_iff, !andb_true_iff, !negb_true_iff.
    rewrite isEqualityOperator_kinds. reflexivity.
Qed.

(** ** The examples of the spec *)

(** C3: [null == undefined] under the default configuration gives exactly
    two findings, the one on [null] first, the one on [undefined] second. *)
Theorem C3_null_eq_undefined_two_findings (a o b : ts.TextRange) (eof : nat) :
  let e := binary (null_ a) ts.EqualsEqualsToken o (ident "undefined" b) in
  Rule.apply [] (program e eof)
  = [ Lint.mkRuleFailure (ts.start a) (ts.end_ a) "Comparison operand is null";
      Lint.mkRuleFailure (ts.start b) (ts.end_ b)
        "Comparison operand is undefined" ]
  /\ scan (program e eof) defaultOptions = Rule.apply [] (program e eof)
  /\ allowNull defaultOptions = false
  /\ allowUndefined defaultOptions = false.
Proof. repeat split. Qed.

(** C4: each allowance flag suppresses its own value only.  With
    [allow-null-check], [a == null] gives no finding and [a == undefined]
    one; with [allow-undefined-check], [a == undefined] gives no finding
    and [a == null] one. *)
Theorem C4_each_flag_suppresses_its_own_value
    (a o b : ts.TextRange) (eof : nat) :
  let a_eq_null := binary (ident "a" a) ts.EqualsEqualsToken o (null_ b) in
  let a_eq_undefined :=
    binary (ident "a" a) ts.EqualsEqualsToken o (ident "undefined" b) in
  Rule.apply [OPTION_ALLOW_NULL_CHECK] (program a_eq_null eof) = []
  /\ Rule.apply [OPTION_ALLOW_NULL_CHECK] (program a_eq_undefined eof)
     = [Lint.mkRuleFailure (ts.start b) (ts.end_ b)
          "Comparison operand is undefined"]
  /\ Rule.apply [OPTION_ALLOW_UNDEFINED_CHECK] (program a_eq_undefined eof) = []
  /\ Rule.apply [OPTION_ALLOW_UNDEFINED_CHECK] (program a_eq_null eof)
     = [Lint.mkRuleFailure (ts.start b) (ts.end_ b)
          "Comparison operand is null"]
  /\ Rule.optionsOf [OPTION_ALLOW_NULL_CHECK] = mkOptions true false
  /\ Rule.optionsOf [OPTION_ALLOW_UNDEFINED_CHECK] = mkOptions false true.
Proof. repeat split. Qed.

Lemma failuresUnder_spec (ctx : Lint.WalkContext Options) (node : ts.Node) :
  failuresUnder ctx node = findingsOf (Lint.options ctx) (preorder node).
Proof. unfold failuresUnder. rewrite cb_spec. reflexivity. Qed.

Lemma not_equality_operator (op : ts.Node) :
  ts.kind op <> ts.TokenOfKind ts.EqualsEqualsToken ->
  ts.kind op <> ts.TokenOfKind ts.ExclamationEqualsToken ->
  ts.kind op <> ts.TokenOfKind ts.EqualsEqualsEqualsToken ->
  ts.kind op <> ts.TokenOfKind ts.ExclamationEqualsEqualsToken ->
  isEqualityOperator op = false.
Proof.
  intros H1 H2 H3 H4. destruct (isEqualityOperator op) eqn:E; [|reflexivity].
  apply isEqualityOperator_kinds in E. tauto.
Qed.

(** C5: a binary expression whose operator is none of [==], [!=], [===],
    [!==] is not classified: the callback adds no failure for it, and what
    a scan of the expression reports is what is reported inside its
    operands.  At [a < null] this is no finding at all. *)
Theorem C5_other_operators_not_classified
    (l op r : ts.Node) (range : ts.TextRange) (eof : nat)
    (ctx : Lint.WalkContext Options) (config : Options) :
  ts.kind op <> ts.TokenOfKind ts.EqualsEqualsToken ->
  ts.kind op <> ts.TokenOfKind ts.ExclamationEqualsToken ->
  ts.kind op <> ts.TokenOfKind ts.EqualsEqualsEqualsToken ->
  ts.kind op <> ts.TokenOfKind ts.ExclamationEqualsEqualsToken ->
  let node := ts.BinaryExpressionNode l op r range in
  check node ctx = ctx
  /\ cb node ctx = ts.forEachChild cb node ctx
  /\ scan (program node eof) config
     = failuresUnder (Lint.mkWalkContext (program node eof) config []) l
       ++ failuresUnder (Lint.mkWalkContext (program node eof) config []) op
       ++ failuresUnder (Lint.mkWalkContext (program node eof) config []) r.
Proof.
  intros H1 H2 H3 H4 node.
  pose proof (not_equality_operator op H1 H2 H3 H4) as E.
  assert (C : forall c, check node c = c).
  { intros c. simpl. rewrite getEqualsKind_defined, E. reflexivity. }
  split; [apply C|]. split.
  - rewrite cb_unfold, C. reflexivity.
  - assert (A : findingsAt config node = []).
    { unfold findingsAt, shouldReport. simpl. rewrite E, !andb_false_r.
      reflexivity. }
    rewrite scan_spec, !failuresUnder_spec.
    unfold nodes, program. cbn [ts.statements flat_map preorder].
    fold node. rewrite !app_nil_r, findingsOf_app, !findingsOf_cons.
    change (preorder node) with (node :: preorder l ++ preorder op ++ preorder r).
    rewrite findingsOf_cons, A, !findingsOf_app. simpl.
    rewrite !app_nil_r. reflexivity.
Qed.

Lemma C5_a_less_than_null_no_finding :
  let a := ident "a" (rg 0 1) in
  let op := ts.TokenNode ts.LessThanToken (rg 2 3) in
  let n := null_ (rg 4 8) in
  (ts.kind op <> ts.TokenOfKind ts.EqualsEqualsToken
   /\ ts.kind op <> ts.TokenOfKind ts.ExclamationEqualsToken
   /\ ts.kind op <> ts.TokenOfKind ts.EqualsEqualsEqualsToken
   /\ ts.kind op <> ts.TokenOfKind ts.ExclamationEqualsEqualsToken)
  /\ scan (program (ts.BinaryExpressionNode a op n (rg 0 8)) 8) defaultOptions
     = [].
Proof.
  intros a op n.
  assert (H : ts.kind op <> ts.TokenOfKind ts.EqualsEqualsToken
              /\ ts.kind op <> ts.TokenOfKind ts.ExclamationEqualsToken
              /\ ts.kind op <> ts.TokenOfKind ts.EqualsEqualsEqualsToken
              /\ ts.kind op <> ts.TokenOfKind ts.ExclamationEqualsEqualsToken).
  { repeat split; discriminate. }
  split; [exact H|].
  destruct H as (H1 & H2 & H3 & H4).
  exact (proj2 (proj2
    (C5_other_operators_not_classified a op n (rg 0 8) 8
       (Lint.mkWalkContext (program a 8) defaultOptions []) defaultOptions
       H1 H2 H3 H4))).
Defined.

(** C6: the traversal goes on into the children of a binary expression
    that matched.  After the failures of the expression itself come those
    reported under its left operand, its operator token and its right
    operand, each as a walk of that subtree alone reports them.  In
    [(a == null) == b] under the default configuration the only finding is
    on the inner [null]. *)
Theorem C6_traversal_continues_into_matched_expression
    (l op r : ts.Node) (range : ts.TextRange)
    (ctx : Lint.WalkContext Options)
    (a o1 n o2 b : ts.TextRange) (eof : nat) :
  let node := ts.BinaryExpressionNode l op r range in
  cb node ctx
  = cb r (snd (cb op (snd (cb l (check node ctx)))))
  /\ Lint.failures (snd (cb node ctx))
     = Lint.failures (check node ctx)
       ++ failuresUnder ctx l ++ failuresUnder ctx op ++ failuresUnder ctx r
  /\ Rule.apply []
       (program
          (binary
             (paren (binary (ident "a" a) ts.EqualsEqualsToken o1 (null_ n)))
             ts.EqualsEqualsToken o2 (ident "b" b))
          eof)
     = [Lint.mkRuleFailure (ts.start n) (ts.end_ n) "Comparison operand is null"].
Proof.
  intros node. split; [|split].
  - rewrite (cb_unfold node). cbn [ts.forEachChild node].
    unfold ts.orElse, ts.visitNode. rewrite !cb_spec. reflexivity.
  - rewrite cb_spec, check_spec, !failuresUnder_spec. simpl.
    rewrite !findingsOf_app, !app_assoc. reflexivity.
  - reflexivity.
Qed.

(** ** Location and message *)

Lemma In_findingsOf (config : Options) (ns : list ts.Node) (f : Lint.RuleFailure) :
  In f (findingsOf config ns) ->
  exists o, In o (flat_map operandsOf ns)
            /\ shouldReport config o = true /\ f = findingOn (operand o).
Proof.
  rewrite findingsOf_occurrences. intros H.
  apply in_map_iff in H as (o & <- & H).
  apply filter_In in H as [H1 H2]. now exists o.
Qed.

(** C7: every finding of a scan has as its location the span of the
    reported operand itself, an operand of a binary expression of the tree;
    its message is "Comparison operand is null" when that operand is the
    null literal and "Comparison operand is undefined" when it is the
    identifier [undefined].  The message the rule builds for a node is
    the first one for the null literal and the second for any other
    node. *)
Theorem C7_location_and_message (root : ts.SourceFile) (config : Options) :
  Forall
    (fun f =>
       exists o : Occurrence,
         In o (operandOccurrences root)
         /\ Lint.startPosition f = ts.getStart (operand o)
         /\ Lint.endPosition f = ts.getEnd (operand o)
         /\ ((isNullLiteral (operand o) = true
              /\ Lint.failure f = "Comparison operand is null")
             \/ (isUndefinedIdentifier (operand o) = true
                 /\ Lint.failure f = "Comparison operand is undefined")))
    (scan root config)
  /\ forall node : ts.Node,
       FAILURE_STRING_FACTORY node
       = if isNullLiteral node then "Comparison operand is null"
         else "Comparison operand is undefined".
Proof.
  split.
  - apply Forall_forall. intros f H. rewrite scan_spec in H.
    apply In_findingsOf in H as (o & Hin & Hrep & ->).
    exists o. split; [exact Hin|]. split; [reflexivity|]. split; [reflexivity|].
    unfold shouldReport, invalidOperand in Hrep.
    apply andb_true_iff in Hrep as [Hrep _].
    apply orb_true_iff in Hrep as [Hrep|Hrep];
      apply andb_true_iff in Hrep as [Hrep _].
    + left. split; [exact Hrep|]. simpl. now rewrite Hrep.
    + right. split; [exact Hrep|]. simpl.
      destruct (operand o) as [| | |]; try discriminate Hrep. reflexivity.
  - intros node. rewrite FAILURE_STRING_FACTORY_spec. reflexivity.
Qed.

(** ** No state between scans *)

(** C8: the findings of a walk do not depend on what the context held
    before: a walk returns [undefined], leaves the source file and the
    options as they were, and appends to the failures the findings of the
    scan of that file with those options.  Applying the rule twice gives
    the same findings twice, and a walk on a context that went through a
    walk before appends the same findings again. *)
Theorem C8_scan_deterministic_and_stateless
    (ctx : Lint.WalkContext Options)
    (ruleArguments : list string) (root : ts.SourceFile) :
  walk ctx
  = (None, extend ctx (scan (Lint.sourceFile ctx) (Lint.options ctx)))
  /\ fst (applyTwice ruleArguments root) = snd (applyTwice ruleArguments root)
  /\ snd (walk (snd (walk ctx)))
     = extend ctx (scan (Lint.sourceFile ctx) (Lint.options ctx)
                   ++ scan (Lint.sourceFile ctx) (Lint.options ctx)).
Proof.
  split; [|split].
  - rewrite walk_spec, scan_spec. reflexivity.
  - reflexivity.
  - rewrite !walk_spec, scan_spec. simpl. rewrite extend_extend. reflexivity.
Qed.

(** ** Termination and the visits of the traversal *)

Lemma visitNodes_cb_logged (cs : list ts.Node) :
  Forall cb_logged_visits cs ->
  forall st,
    ts.visitNodes cb_logged cs st
    = (None, (snd (ts.visitNodes cb cs (fst st)), snd st ++ flat_map preorder cs)).
Proof.
  induction 1 as [|c cs Hc _ IH]; intros [ctx log]; simpl.
  - now rewrite app_nil_r.
  - unfold ts.orElse, ts.visitNode. rewrite Hc, IH. simpl.
    rewrite (cb_spec c ctx). simpl. now rewrite app_assoc.
Qed.

Lemma cb_logged_unfold (node : ts.Node) (st : Logged) :
  cb_logged node st
  = ts.forEachChild cb_logged node (check node (fst st), snd st ++ [node]).
Proof. destruct node; reflexivity. Qed.

Lemma cb_logged_spec (node : ts.Node) : cb_logged_visits node.
Proof.
  induction node as [k r|t r|l op r r0 IHl IHop IHr|k cs r IH]
    using Node_induction; intros [ctx log];
    rewrite cb_logged_unfold, (cb_unfold _ ctx).
  - reflexivity.
  - reflexivity.
  - cbn [ts.forEachChild preorder fst snd]. unfold ts.orElse, ts.visitNode.
    rewrite IHl, IHop, IHr. cbn [fst snd].
    rewrite !cb_spec. cbn [fst snd].
    rewrite <- !app_assoc. reflexivity.
  - cbn [ts.forEachChild preorder fst snd].
    rewrite (visitNodes_cb_logged cs IH). cbn [fst snd].
    rewrite <- app_assoc. reflexivity.
Qed.

Lemma walk_logged_spec (ctx : Lint.WalkContext Options) (log : list ts.Node) :
  walk_logged (ctx, log)
  = (None, (snd (walk ctx), log ++ nodes (Lint.sourceFile ctx))).
Proof.
  unfold walk_logged, walk, ts.forEachChildOfSourceFile, ts.orElse,
    ts.visitNode, nodes. cbn [fst snd].
  rewrite visitNodes_cb_logged
    by (apply Forall_forall; intros; apply cb_logged_spec).
  rewrite cb_logged_spec. cbn [fst snd].
  rewrite visitNodes_cb by (apply Forall_forall; intros; apply cb_spec).
  rewrite !cb_spec. cbn [fst snd preorder]. rewrite <- app_assoc. reflexivity.
Qed.

Lemma length_flat_map_preorder (cs : list ts.Node) :
  Forall (fun n => List.length (preorder n) = size n) cs ->
  List.length (flat_map preorder cs) = list_sum (map size cs).
Proof.
  induction 1 as [|c cs Hc _ IH]; [reflexivity|].
  simpl. rewrite length_app, Hc, IH. reflexivity.
Qed.

Lemma length_preorder (node : ts.Node) :
  List.length (preorder node) = size node.
Proof.
  induction node as [k r|t r|l op r r0 IHl IHop IHr|k cs r IH]
    using Node_induction; simpl; try reflexivity.
  - rewrite !length_app, IHl, IHop, IHr. lia.
  - now rewrite length_flat_map_preorder.
Qed.

Lemma length_nodes (root : ts.SourceFile) :
  List.length (nodes root) = sizeOfSourceFile root.
Proof.
  unfold nodes, sizeOfSourceFile. rewrite length_app.
  rewrite length_flat_map_preorder
    by (apply Forall_forall; intros; apply length_preorder).
  reflexivity.
Qed.

Lemma length_findingsAt (config : Options) (node : ts.Node) :
  List.length (findingsAt config node) <= 2.
Proof.
  unfold findingsAt. rewrite length_map.
  destruct node as [| |l op r ?|]; simpl; try lia.
  destruct (shouldReport _ _), (shouldReport _ _); simpl; lia.
Qed.

Lemma length_findingsOf (config : Options) (ns : list ts.Node) :
  List.length (findingsOf config ns) <= 2 * List.length ns.
Proof.
  induction ns as [|n ns IH]; [simpl; lia|].
  rewrite findingsOf_cons, length_app.
  pose proof (length_findingsAt config n). simpl. lia.
Qed.

(** C9: the scan of a finite tree terminates.  The walk is a total
    function and returns [undefined], so no sibling is skipped; the nodes
    the callback is called on are the descendants of the root in pre-order,
    each one once: as many calls as the tree has nodes below the root; and
    the findings are at most two for each of them. *)
Theorem C9_scan_terminates_bounded_by_tree
    (root : ts.SourceFile) (config : Options) :
  let ctx := Lint.mkWalkContext root config [] in
  walk_logged (ctx, []) = (None, (snd (walk ctx), nodes root))
  /\ fst (walk ctx) = None
  /\ Lint.failures (snd (walk ctx)) = scan root config
  /\ List.length (nodes root) = sizeOfSourceFile root
  /\ List.length (scan root config) <= 2 * sizeOfSourceFile root.
Proof.
  intros ctx. repeat split.
  - rewrite walk_logged_spec. reflexivity.
  - rewrite walk_spec. reflexivity.
  - apply length_nodes.
  - rewrite scan_spec, <- length_nodes. apply length_findingsOf.
Qed.

(** ** The allowance flags *)

Lemma map_filter_as_flat_map {A B} (f : A -> B) (q : A -> bool) (l : list A) :
  map f (filter q l) = flat_map (fun x => if q x then [f x] else []) l.
Proof.
  induction l as [|x l IH]; [reflexivity|].
  simpl. destruct (q x); simpl; now rewrite IH.
Qed.

Lemma filter_flat_map {A B} (p : B -> bool) (g : A -> list B) (l : list A) :
  filter p (flat_map g l) = flat_map (fun x => filter p (g x)) l.
Proof.
  induction l as [|x l IH]; [reflexivity|].
  simpl. now rewrite filter_app, IH.
Qed.

Lemma null_message_of_finding (x : ts.Node) :
  isNullMessage (findingOn x) = isNullLiteral x.
Proof. unfold isNullMessage. simpl. destruct (isNullLiteral x); reflexivity. Qed.

Lemma undefined_message_of_finding (x : ts.Node) :
  isUndefinedMessage (findingOn x) = negb (isNullLiteral x).
Proof.
  unfold isUndefinedMessage. simpl. destruct (isNullLiteral x); reflexivity.
Qed.

Lemma null_is_not_undefined (x : ts.Node) :
  isNullLiteral x = true -> isUndefinedIdentifier x = false.
Proof. destruct x; try discriminate; reflexivity. Qed.

Lemma allowNull_step (u : bool) (o : Occurrence) :
  (if shouldReport (mkOptions true u) o then [findingOn (operand o)] else [])
  = filter (fun f => negb (isNullMessage f))
      (if shouldReport (mkOptions false u) o
       then [findingOn (operand o)] else []).
Proof.
  unfold shouldReport, invalidOperand. cbn [allowNull allowUndefined negb].
  rewrite andb_false_r, andb_true_r. cbn [orb].
  destruct (isEqualityOperator (operatorOf o));
    rewrite ?andb_false_r, ?andb_true_r; [|reflexivity].
  destruct (isNullLiteral (operand o)) eqn:N.
  - rewrite (null_is_not_undefined _ N). cbn [andb orb filter].
    now rewrite null_message_of_finding, N.
  - cbn [orb]. destruct (isUndefinedIdentifier (operand o) && negb u);
      [|reflexivity].
    cbn [filter]. now rewrite null_message_of_finding, N.
Qed.

Lemma allowUndefined_step (n : bool) (o : Occurrence) :
  (if shouldReport (mkOptions n true) o then [findingOn (operand o)] else [])
  = filter (fun f => negb (isUndefinedMessage f))
      (if shouldReport (mkOptions n false) o
       then [findingOn (operand o)] else []).
Proof.
  unfold shouldReport, invalidOperand. cbn [allowNull allowUndefined negb].
  rewrite andb_false_r, andb_true_r, orb_false_r.
  destruct (isEqualityOperator (operatorOf o));
    rewrite ?andb_false_r, ?andb_true_r; [|reflexivity].
  destruct (isNullLiteral (operand o)) eqn:N.
  - rewrite (null_is_not_undefined _ N). cbn [andb orb].
    destruct n; cbn [negb andb orb filter]; [reflexivity|].
    now rewrite undefined_message_of_finding, N.
  - cbn [andb orb]. destruct (isUndefinedIdentifier (operand o));
      [|reflexivity].
    cbn [filter]. now rewrite undefined_message_of_finding, N.
Qed.

Lemma filter_null_messages (u : bool) (os : list Occurrence) :
  map (fun o => findingOn (operand o))
      (filter (shouldReport (mkOptions true u)) os)
  = filter (fun f => negb (isNullMessage f))
      (map (fun o => findingOn (operand o))
           (filter (shouldReport (mkOptions false u)) os)).
Proof.
  rewrite !map_filter_as_flat_map, filter_flat_map.
  apply flat_map_ext. intros o. apply allowNull_step.
Qed.

Lemma filter_undefined_messages (n : bool) (os : list Occurrence) :
  map (fun o => findingOn (operand o))
      (filter (shouldReport (mkOptions n true)) os)
  = filter (fun f => negb (isUndefinedMessage f))
      (map (fun o => findingOn (operand o))
           (filter (shouldReport (mkOptions n false)) os)).
Proof.
  rewrite !map_filter_as_flat_map, filter_flat_map.
  apply flat_map_ext. intros o. apply allowUndefined_step.
Qed.

(** C10: enabling an allowance flag only removes findings.  With
    [allowNull] true the findings are those of the scan with [allowNull]
    false and the same [allowUndefined], without the findings on null
    literals and otherwise unchanged and in the same order; likewise for
    [allowUndefined] and the findings on the identifier [undefined].  In
    particular for one flag enabled against the default configuration. *)
Theorem C10_enabling_a_flag_only_removes_its_findings
    (root : ts.SourceFile) (n u : bool) :
  scan root (mkOptions true u)
  = filter (fun f => negb (isNullMessage f)) (scan root (mkOptions false u))
  /\ scan root (mkOptions n true)
     = filter (fun f => negb (isUndefinedMessage f))
         (scan root (mkOptions n false))
  /\ Rule.apply [OPTION_ALLOW_NULL_CHECK] root
     = filter (fun f => negb (isNullMessage f)) (Rule.apply [] root)
  /\ Rule.apply [OPTION_ALLOW_UNDEFINED_CHECK] root
     = filter (fun f => negb (isUndefinedMessage f)) (Rule.apply [] root).
Proof.
  assert (A : forall u', scan root (mkOptions true u')
              = filter (fun f => negb (isNullMessage f))
                  (scan root (mkOptions false u'))).
  { intros u'. rewrite !scan_spec, !findingsOf_occurrences.
    apply filter_null_messages. }
  assert (B : forall n', scan root (mkOptions n' true)
              = filter (fun f => negb (isUndefinedMessage f))
                  (scan root (mkOptions n' false))).
  { intros n'. rewrite !scan_spec, !findingsOf_occurrences.
    apply filter_undefined_messages. }
  split; [apply A|]. split; [apply B|]. split.
  - exact (A false).
  - exact (B false).
Qed.

(** ** The order of the findings: proofs *)

Lemma preorder_children (node : ts.Node) :
  preorder node = node :: flat_map preorder (children node).
Proof.
  destruct node; simpl; rewrite ?app_nil_r; reflexivity.
Qed.

Lemma numbered_cons {A} (k : nat) (x : A) (l : list A) :
  numbered k (x :: l) = (k, x) :: numbered (S k) l.
Proof. reflexivity. Qed.

Lemma numbered_index {A} (l : list A) : forall k i x,
  In (i, x) (numbered k l) -> exists j, i = k + j /\ nth_error l j = Some x.
Proof.
  induction l as [|y l IH]; intros k i x H; [contradiction H|].
  rewrite numbered_cons in H. destruct H as [H|H].
  - injection H as <- <-. exists 0. split; [lia|reflexivity].
  - apply IH in H as (j & -> & Hj). exists (S j). split; [lia|exact Hj].
Qed.

Lemma StronglySorted_app {A} (R : A -> A -> Prop) (xs ys : list A) :
  StronglySorted R xs -> StronglySorted R ys ->
  (forall x y, In x xs -> In y ys -> R x y) ->
  StronglySorted R (xs ++ ys).
Proof.
  induction 1 as [|x xs Hs IH Hx]; intros Hys Hxy; [exact Hys|].
  simpl. constructor.
  - apply IH; [exact Hys|]. intros a b Ha Hb. apply Hxy; [now right|exact Hb].
  - apply Forall_app. split; [exact Hx|].
    apply Forall_forall. intros b Hb. apply Hxy; [now left|exact Hb].
Qed.

Lemma positionsAt_sorted (config : Options) (k : nat) (n : ts.Node) :
  StronglySorted position_lt (positionsAt config (k, n))
  /\ Forall (fun p => fst p = k) (positionsAt config (k, n)).
Proof.
  unfold positionsAt. simpl.
  destruct n as [| |l op r ?|]; simpl; try (split; constructor).
  assert (LR : position_lt (k, OnLeft) (k, OnRight)).
  { right. simpl. auto. }
  destruct (shouldReport _ _), (shouldReport _ _); simpl; split;
    repeat first [exact LR | reflexivity
                 | apply SSorted_cons | apply SSorted_nil
                 | apply Forall_cons | apply Forall_nil].
Qed.

Lemma positions_sorted (config : Options) (ns : list ts.Node) : forall k,
  StronglySorted position_lt (flat_map (positionsAt config) (numbered k ns))
  /\ Forall (fun p => k <= fst p)
       (flat_map (positionsAt config) (numbered k ns)).
Proof.
  induction ns as [|n ns IH]; intros k; [split; constructor|].
  rewrite numbered_cons. simpl.
  destruct (IH (S k)) as [S1 B1].
  destruct (positionsAt_sorted config k n) as [S0 B0].
  rewrite Forall_forall in B0, B1. split.
  - apply StronglySorted_app; [exact S0|exact S1|].
    intros x y Hx Hy. left. rewrite (B0 x Hx). apply (B1 y Hy).
  - apply Forall_app. split; apply Forall_forall; intros p Hp.
    + rewrite (B0 p Hp). lia.
    + specialize (B1 p Hp). simpl in B1. lia.
Qed.

Lemma findings_of_sides (config : Options) (n : ts.Node) :
  map (fun s => option_map findingOn (operandAt s n)) (sidesReported config n)
  = map Some (findingsAt config n).
Proof.
  destruct n as [| |l op r ?|]; try reflexivity.
  unfold findingsAt. simpl.
  destruct (shouldReport _ _), (shouldReport _ _); reflexivity.
Qed.

Lemma findings_at_positions (config : Options) (all ns : list ts.Node) :
  forall k,
    (forall i n, In (i, n) (numbered k ns) -> nth_error all i = Some n) ->
    map (fun p => match nth_error all (fst p) with
                  | Some e => option_map findingOn (operandAt (snd p) e)
                  | None => None
                  end)
        (flat_map (positionsAt config) (numbered k ns))
    = map Some (findingsOf config ns).
Proof.
  induction ns as [|n ns IH]; intros k H; [reflexivity|].
  rewrite numbered_cons, findingsOf_cons. simpl. rewrite !map_app. f_equal.
  - unfold positionsAt. simpl. rewrite map_map. simpl.
    rewrite (H k n) by (rewrite numbered_cons; now left).
    apply findings_of_sides.
  - apply IH. intros i m Hin. apply H. rewrite numbered_cons. now right.
Qed.

(** C2: the findings of a scan are in pre-order of the binary expressions
    they come from, and in one expression the finding on the left operand
    is before the one on the right operand.  Each finding has a position:
    the pre-order index of its expression and the side of its operand;
    the findings are the findings on the operands at the reported
    positions, in the same order, and these positions are strictly
    increasing. *)
Theorem C2_findings_in_preorder_left_before_right
    (root : ts.SourceFile) (config : Options) :
  map (findingAtPosition root) (reportedPositions config root)
  = map Some (scan root config)
  /\ StronglySorted position_lt (reportedPositions config root)
  /\ scan root config = flat_map (findingsAt config) (nodes root)
  /\ forall node : ts.Node,
       preorder node = node :: flat_map preorder (children node).
Proof.
  split; [|split; [|split]].
  - rewrite scan_spec. unfold reportedPositions, findingAtPosition.
    apply findings_at_positions. intros i n H.
    apply numbered_index in H as (j & -> & Hj). exact Hj.
  - apply positions_sorted.
  - apply scan_spec.
  - apply preorder_children.
Qed.

(** ** The rule arguments *)

Lemma indexOf_lower (array : list string) (x : string) :
  (-1 <= indexOf array x)%Z.
Proof.
  induction array as [|y array IH]; simpl; [lia|].
  destruct (String.eqb y x); [lia|].
  destruct (indexOf array x =? -1)%Z; lia.
Qed.

Lemma indexOf_absent (array : list string) (x : string) :
  indexOf array x = (-1)%Z <-> ~ In x array.
Proof.
  induction array as [|y array IH]; simpl; [tauto|].
  destruct (String.eqb y x) eqn:E.
  - apply String.eqb_eq in E. split; [discriminate|]. intros H. tauto.
  - apply String.eqb_neq in E.
    pose proof (indexOf_lower array x) as L.
    destruct (indexOf array x =? -1)%Z eqn:I.
    + apply Z.eqb_eq in I. tauto.
    + apply Z.eqb_neq in I. split; [lia|]. intros H. tauto.
Qed.

Lemma indexOf_present (array : list string) (x : string) :
  negb (indexOf array x =? -1)%Z = true <-> In x array.
Proof.
  rewrite negb_true_iff, Z.eqb_neq, indexOf_absent.
  split; [|tauto]. intros H.
  destruct (in_dec string_dec x array) as [I|I]; [exact I|contradiction].
Qed.

(** X1: a flag of the configuration is set exactly when its option name
    occurs among the rule arguments, at whatever index and however many
    times. *)
Theorem options_set_iff_argument_present (ruleArguments : list string) :
  (allowNull (Rule.optionsOf ruleArguments) = true
   <-> In OPTION_ALLOW_NULL_CHECK ruleArguments)
  /\ (allowUndefined (Rule.optionsOf ruleArguments) = true
      <-> In OPTION_ALLOW_UNDEFINED_CHECK ruleArguments).
Proof. split; apply indexOf_present. Qed.

Lemma bool_eq_of_iff (a b : bool) : (a = true <-> b = true) -> a = b.
Proof. destruct a, b; intuition congruence. Qed.

(** X2: the findings of the rule depend on the rule arguments only through
    the presence of the two option names: two argument lists in which each
    option name is either present in both or absent from both give the same
    findings, so that the order of the arguments, repetitions and
    arguments that are no option name change nothing. *)
Theorem apply_depends_on_presence_only
    (args1 args2 : list string) (root : ts.SourceFile) :
  (In OPTION_ALLOW_NULL_CHECK args1 <-> In OPTION_ALLOW_NULL_CHECK args2) ->
  (In OPTION_ALLOW_UNDEFINED_CHECK args1
   <-> In OPTION_ALLOW_UNDEFINED_CHECK args2) ->
  Rule.apply args1 root = Rule.apply args2 root.
Proof.
  intros HN HU. unfold Rule.apply. f_equal.
  unfold Rule.optionsOf. f_equal; apply bool_eq_of_iff;
    rewrite !indexOf_present; assumption.
Qed.

Lemma apply_depends_on_presence_only_witness :
  let args1 := ["allow-null-check"; "no-such-option"; "allow-null-check"] in
  let args2 := ["allow-null-check"] in
  let root :=
    program (binary (null_ (rg 0 4)) ts.EqualsEqualsToken (rg 5 7)
               (ident "undefined" (rg 8 17))) 17 in
  (In OPTION_ALLOW_NULL_CHECK args1 <-> In OPTION_ALLOW_NULL_CHECK args2)
  /\ (In OPTION_ALLOW_UNDEFINED_CHECK args1
      <-> In OPTION_ALLOW_UNDEFINED_CHECK args2)
  /\ Rule.apply args1 root = Rule.apply args2 root.
Proof.
  intros args1 args2 root.
  assert (HN : In OPTION_ALLOW_NULL_CHECK args1
               <-> In OPTION_ALLOW_NULL_CHECK args2).
  { simpl. tauto. }
  assert (HU : In OPTION_ALLOW_UNDEFINED_CHECK args1
               <-> In OPTION_ALLOW_UNDEFINED_CHECK args2).
  { simpl. unfold OPTION_ALLOW_UNDEFINED_CHECK.
    split; intros H; repeat destruct H as [H|H]; try discriminate H;
      contradiction. }
  split; [exact HN|]. split; [exact HU|].
  exact (apply_depends_on_presence_only args1 args2 root HN HU).
Defined.

Ltac conforming :=
  split;
  [ repeat (apply Forall_cons; [simpl; auto|]); apply Forall_nil
  | simpl; lia ].

Ltac distinct :=
  repeat (apply NoDup_cons; [simpl; intuition discriminate|]);
  apply NoDup_nil.

(** X3: the metadata and [apply] agree.  A single rule argument changes
    the configuration exactly when it is one of the strings of the
    [enum] of the metadata; every configuration is the configuration of
    rule arguments that conform to the [options] entry, without
    repetition; and the option examples of the metadata conform to it. *)
Theorem metadata_agrees_with_apply :
  (forall a : string,
     Rule.optionsOf [a] <> Rule.optionsOf []
     <-> In a (Metadata.enum (Metadata.options Metadata.metadata)))
  /\ (forall config : Options,
        exists ruleArguments,
          Metadata.conforms ruleArguments
          /\ NoDup ruleArguments
          /\ Rule.optionsOf ruleArguments = config)
  /\ Forall Metadata.conforms (Metadata.optionExamples Metadata.metadata).
Proof.
  split; [|split].
  - intros a. simpl. unfold Rule.optionsOf. simpl.
    unfold OPTION_ALLOW_NULL_CHECK, OPTION_ALLOW_UNDEFINED_CHECK.
    destruct (String.eqb a "allow-null-check") eqn:N;
      destruct (String.eqb a "allow-undefined-check") eqn:U; simpl.
    + apply String.eqb_eq in N. split; [auto|discriminate].
    + apply String.eqb_eq in N. split; [auto|discriminate].
    + apply String.eqb_eq in U. split; [auto|discriminate].
    + apply String.eqb_neq in N. apply String.eqb_neq in U.
      split; [congruence|]. intros [H|[H|[]]]; congruence.
  - intros [[|] [|]];
      [ exists [OPTION_ALLOW_NULL_CHECK; OPTION_ALLOW_UNDEFINED_CHECK]
      | exists [OPTION_ALLOW_NULL_CHECK]
      | exists [OPTION_ALLOW_UNDEFINED_CHECK]
      | exists [] ];
      (split; [conforming|split; [distinct|reflexivity]]).
  - simpl. repeat (apply Forall_cons; [conforming|]). apply Forall_nil.
Qed.

(** ** The verdict on the two operands *)

Lemma check_binary (l op r : ts.Node) (rg0 : ts.TextRange)
    (ctx : Lint.WalkContext Options) :
  check (ts.BinaryExpressionNode l op r rg0) ctx
  = if is_defined (Lint.getEqualsKind op)
    then extend ctx
           ((if reportsLeft (getInvalidOperands l r (Lint.options ctx))
             then [findingOn l] else [])
            ++ (if reportsRight (getInvalidOperands l r (Lint.options ctx))
                then [findingOn r] else []))
    else ctx.
Proof.
  unfold reportsLeft, reportsRight. simpl.
  destruct (is_defined (Lint.getEqualsKind op)); [|reflexivity].
  destruct (getInvalidOperands l r (Lint.options ctx)); simpl;
    rewrite ?addFailureAtNode_spec, ?extend_extend, ?extend_nil; reflexivity.
Qed.

(** X4: the two operands are judged alike.  With the operands exchanged
    the verdict is the mirrored one, and the callback reports the same
    failures for the expression in the opposite order. *)
Theorem exchanged_operands_mirror_the_verdict
    (l op r : ts.Node) (rg1 rg2 : ts.TextRange)
    (root : ts.SourceFile) (config : Options) :
  getInvalidOperands r l config = mirror (getInvalidOperands l r config)
  /\ Lint.failures
       (check (ts.BinaryExpressionNode r op l rg2)
          (Lint.mkWalkContext root config []))
     = rev (Lint.failures
              (check (ts.BinaryExpressionNode l op r rg1)
                 (Lint.mkWalkContext root config []))).
Proof.
  assert (M : getInvalidOperands r l config
              = mirror (getInvalidOperands l r config)).
  { rewrite !getInvalidOperands_spec.
    destruct (invalidOperand config l), (invalidOperand config r);
      reflexivity. }
  split; [exact M|].
  rewrite !check_binary. cbn [Lint.options]. rewrite M.
  destruct (is_defined (Lint.getEqualsKind op)); [|reflexivity].
  destruct (getInvalidOperands l r config); reflexivity.
Qed.

Lemma invalidOperand_all_allowed (x : ts.Node) :
  invalidOperand (mkOptions true true) x = false.
Proof.
  unfold invalidOperand. simpl. now rewrite !andb_false_r.
Qed.

(** X5: with both checks allowed the rule reports nothing: the verdict on
    any two operands is "None" and the scan of any tree is empty. *)
Theorem both_flags_disable_the_rule
    (l r : ts.Node) (root : ts.SourceFile) :
  getInvalidOperands l r (mkOptions true true) = None_
  /\ scan root (mkOptions true true) = []
  /\ Rule.apply [OPTION_ALLOW_NULL_CHECK; OPTION_ALLOW_UNDEFINED_CHECK] root = []
  /\ Rule.apply [OPTION_ALLOW_UNDEFINED_CHECK; OPTION_ALLOW_NULL_CHECK] root = [].
Proof.
  assert (S : scan root (mkOptions true true) = []).
  { rewrite scan_spec, findingsOf_occurrences.
    induction (flat_map operandsOf (nodes root)) as [|o os IH];
      [reflexivity|].
    simpl. unfold shouldReport at 1.
    rewrite invalidOperand_all_allowed. exact IH. }
  split; [|split; [exact S|split; exact S]].
  rewrite getInvalidOperands_spec, !invalidOperand_all_allowed. reflexivity.
Qed.

Lemma invalidOperand_neither (config : Options) (x : ts.Node) :
  ts.kind x <> ts.TokenOfKind ts.NullKeyword ->
  ts.text_of x <> Some "undefined" ->
  invalidOperand config x = false.
Proof.
  intros K T. unfold invalidOperand.
  assert (N : isNullLiteral x = false).
  { destruct x as [k ?| | |]; try reflexivity.
    destruct k; try reflexivity. now contradiction K. }
  assert (U : isUndefinedIdentifier x = false).
  { destruct x as [|t ?| |]; try reflexivity. simpl.
    destruct (String.eqb t "undefined") eqn:E; [|reflexivity].
    apply String.eqb_eq in E. subst t. now contradiction T. }
  now rewrite N, U.
Qed.

(** X6: an operand that is not the [null] token and has not the text
    [undefined] is not reported, on either side, whatever the other
    operand and the options: so [null] in parentheses, an identifier of
    another spelling or a string literal. *)
Theorem other_operands_are_never_reported
    (x other : ts.Node) (config : Options) :
  ts.kind x <> ts.TokenOfKind ts.NullKeyword ->
  ts.text_of x <> Some "undefined" ->
  reportsLeft (getInvalidOperands x other config) = false
  /\ reportsRight (getInvalidOperands other x config) = false.
Proof.
  intros K T. rewrite !getInvalidOperands_spec.
  rewrite (invalidOperand_neither config x K T).
  destruct (invalidOperand config other); split; reflexivity.
Qed.

Lemma other_operands_are_never_reported_witness :
  let x := paren (null_ (rg 1 5)) in
  let other := ident "Undefined" (rg 10 19) in
  (ts.kind x <> ts.TokenOfKind ts.NullKeyword
   /\ ts.text_of x <> Some "undefined")
  /\ (ts.kind other <> ts.TokenOfKind ts.NullKeyword
      /\ ts.text_of other <> Some "undefined")
  /\ reportsLeft (getInvalidOperands x other defaultOptions) = false
  /\ reportsRight (getInvalidOperands x other defaultOptions) = false.
Proof.
  intros x other.
  assert (Hx : ts.kind x <> ts.TokenOfKind ts.NullKeyword
               /\ ts.text_of x <> Some "undefined").
  { split; discriminate. }
  assert (Ho : ts.kind other <> ts.TokenOfKind ts.NullKeyword
               /\ ts.text_of other <> Some "undefined").
  { split; discriminate. }
  split; [exact Hx|]. split; [exact Ho|]. split.
  - exact (proj1 (other_operands_are_never_reported x other defaultOptions
                    (proj1 Hx) (proj2 Hx))).
  - exact (proj2 (other_operands_are_never_reported other x defaultOptions
                    (proj1 Ho) (proj2 Ho))).
Defined.

(** X7: which of the equality operators an expression has makes no
    difference: two expressions with the same operands whose operator
    tokens both have an equals kind get the same failures, wherever they
    are. *)
Theorem equality_operators_are_treated_alike
    (l r op1 op2 : ts.Node) (rg1 rg2 : ts.TextRange)
    (ctx : Lint.WalkContext Options) :
  Lint.getEqualsKind op1 <> None ->
  Lint.getEqualsKind op2 <> None ->
  check (ts.BinaryExpressionNode l op1 r rg1) ctx
  = check (ts.BinaryExpressionNode l op2 r rg2) ctx.
Proof.
  intros H1 H2. rewrite !check_binary.
  destruct (Lint.getEqualsKind op1); [|contradiction].
  destruct (Lint.getEqualsKind op2); [|contradiction].
  reflexivity.
Qed.

Lemma equality_operators_are_treated_alike_witness :
  let l := ident "a" (rg 0 1) in
  let r := null_ (rg 6 10) in
  let op1 := ts.TokenNode ts.EqualsEqualsToken (rg 2 4) in
  let op2 := ts.TokenNode ts.ExclamationEqualsEqualsToken (rg 2 5) in
  let ctx := Lint.mkWalkContext (program l 1) defaultOptions [] in
  Lint.getEqualsKind op1 <> None
  /\ Lint.getEqualsKind op2 <> None
  /\ check (ts.BinaryExpressionNode l op1 r (rg 0 10)) ctx
     = check (ts.BinaryExpressionNode l op2 r (rg 0 10)) ctx.
Proof.
  intros l r op1 op2 ctx.
  assert (H1 : Lint.getEqualsKind op1 <> None) by discriminate.
  assert (H2 : Lint.getEqualsKind op2 <> None) by discriminate.
  split; [exact H1|]. split; [exact H2|].
  exact (equality_operators_are_treated_alike l r op1 op2 (rg 0 10) (rg 0 10)
           ctx H1 H2).
Defined.

Lemma invalidOperand_mapRanges (config : Options)
    (f : ts.TextRange -> ts.TextRange) (x : ts.Node) :
  invalidOperand config (mapRanges f x) = invalidOperand config x.
Proof. destruct x as [k ?| | |]; try reflexivity. Qed.

(** X8: each operand is judged by itself.  Whether the left operand is
    reported does not depend on the right operand, whether the right one
    is reported does not depend on the left one, and the verdict does not
    depend on the spans of the operands. *)
Theorem operands_are_judged_independently
    (l l' r r' : ts.Node) (config : Options)
    (f g : ts.TextRange -> ts.TextRange) :
  reportsLeft (getInvalidOperands l r config)
  = reportsLeft (getInvalidOperands l r' config)
  /\ reportsRight (getInvalidOperands l r config)
     = reportsRight (getInvalidOperands l' r config)
  /\ getInvalidOperands (mapRanges f l) (mapRanges g r) config
     = getInvalidOperands l r config.
Proof.
  rewrite !getInvalidOperands_spec, !invalidOperand_mapRanges.
  destruct (invalidOperand config l), (invalidOperand config r),
    (invalidOperand config l'), (invalidOperand config r');
    repeat split; reflexivity.
Qed.

(** ** The walk over statements, comparisons and spans *)

Lemma scan_statements (stmts : list ts.Node) (e : ts.TextRange)
    (config : Options) :
  scan (ts.mkSourceFile stmts e) config
  = findingsOf config (flat_map preorder stmts).
Proof.
  rewrite scan_spec. unfold nodes. simpl.
  rewrite findingsOf_app. simpl. now rewrite app_nil_r.
Qed.

(** X9: the findings of a file are those of its statements, one statement
    after the other.  A file without statements has none; the findings of
    a first statement are the failures the callback reports under it, and
    the findings of two sequences of statements put together are those of
    the first followed by those of the second. *)
Theorem scan_goes_statement_by_statement
    (x : ts.Node) (xs ys : list ts.Node) (e e1 e2 : ts.TextRange)
    (config : Options) :
  scan (ts.mkSourceFile [] e) config = []
  /\ scan (ts.mkSourceFile (x :: xs) e) config
     = failuresUnder (Lint.mkWalkContext (ts.mkSourceFile (x :: xs) e) config []) x
       ++ scan (ts.mkSourceFile xs e1) config
  /\ scan (ts.mkSourceFile (xs ++ ys) e) config
     = scan (ts.mkSourceFile xs e1) config
       ++ scan (ts.mkSourceFile ys e2) config.
Proof.
  rewrite !scan_statements, failuresUnder_spec. split; [reflexivity|]. split.
  - simpl. now rewrite findingsOf_app.
  - now rewrite flat_map_app, findingsOf_app.
Qed.

Lemma findingsAt_not_equality (config : Options) (n : ts.Node) :
  isEqualityExpression n = false -> findingsAt config n = [].
Proof.
  destruct n as [| |l op r ?|]; try reflexivity.
  unfold isEqualityExpression, findingsAt, shouldReport. simpl.
  rewrite getEqualsKind_defined. intros ->.
  simpl. now rewrite !andb_false_r.
Qed.

Lemma length_findingsOf_equality (config : Options) (ns : list ts.Node) :
  List.length (findingsOf config ns)
  <= 2 * List.length (filter isEqualityExpression ns).
Proof.
  induction ns as [|n ns IH]; [simpl; lia|].
  rewrite findingsOf_cons, length_app. simpl.
  destruct (isEqualityExpression n) eqn:E.
  - pose proof (length_findingsAt config n). simpl. lia.
  - rewrite (findingsAt_not_equality config n E). simpl. lia.
Qed.

(** X10: a scan reports at most two findings for each binary expression of
    the tree whose operator token has an equals kind, and so none on a tree
    without such an expression. *)
Theorem at_most_two_findings_for_each_comparison
    (root : ts.SourceFile) (config : Options) :
  List.length (scan root config)
  <= 2 * List.length (filter isEqualityExpression (nodes root)).
Proof. rewrite scan_spec. apply length_findingsOf_equality. Qed.

Lemma flat_map_preorder_mapRanges (f : ts.TextRange -> ts.TextRange)
    (cs : list ts.Node) :
  Forall (fun n => preorder (mapRanges f n) = map (mapRanges f) (preorder n)) cs ->
  flat_map preorder (map (mapRanges f) cs)
  = map (mapRanges f) (flat_map preorder cs).
Proof.
  induction 1 as [|c cs Hc _ IH]; [reflexivity|].
  simpl. now rewrite map_app, Hc, IH.
Qed.

Lemma preorder_mapRanges (f : ts.TextRange -> ts.TextRange) (node : ts.Node) :
  preorder (mapRanges f node) = map (mapRanges f) (preorder node).
Proof.
  induction node as [k r|t r|l op r r0 IHl IHop IHr|k cs r IH]
    using Node_induction; simpl; try reflexivity.
  - now rewrite !map_app, IHl, IHop, IHr.
  - now rewrite flat_map_preorder_mapRanges.
Qed.

Lemma findingOn_mapRanges (f : ts.TextRange -> ts.TextRange) (x : ts.Node) :
  findingOn (mapRanges f x) = mapFinding f (findingOn x).
Proof.
  unfold findingOn, mapFinding, ts.getStart, ts.getEnd.
  destruct x as [k [a b]|t [a b]|l op r [a b]|k cs [a b]]; reflexivity.
Qed.

Lemma isEqualityOperator_mapRanges (f : ts.TextRange -> ts.TextRange)
    (op : ts.Node) :
  isEqualityOperator (mapRanges f op) = isEqualityOperator op.
Proof. destruct op as [k ?| | |]; reflexivity. Qed.

Lemma findingsAt_mapRanges (config : Options)
    (f : ts.TextRange -> ts.TextRange) (n : ts.Node) :
  findingsAt config (mapRanges f n) = map (mapFinding f) (findingsAt config n).
Proof.
  destruct n as [| |l op r ?|]; try reflexivity.
  unfold findingsAt, shouldReport. simpl.
  rewrite !invalidOperand_mapRanges, isEqualityOperator_mapRanges.
  destruct (invalidOperand config l && isEqualityOperator op),
    (invalidOperand config r && isEqualityOperator op); simpl;
    rewrite ?findingOn_mapRanges; reflexivity.
Qed.

Lemma findingsOf_mapRanges (config : Options)
    (f : ts.TextRange -> ts.TextRange) (ns : list ts.Node) :
  findingsOf config (map (mapRanges f) ns)
  = map (mapFinding f) (findingsOf config ns).
Proof.
  induction ns as [|n ns IH]; [reflexivity|].
  simpl map at 1. rewrite !findingsOf_cons, map_app, findingsAt_mapRanges, IH.
  reflexivity.
Qed.

Lemma scan_mapRanges (f : ts.TextRange -> ts.TextRange)
    (root : ts.SourceFile) (config : Options) :
  scan (mapRangesOfSourceFile f root) config
  = map (mapFinding f) (scan root config).
Proof.
  destruct root as [stmts e]. unfold mapRangesOfSourceFile. simpl.
  rewrite !scan_statements, <- findingsOf_mapRanges. f_equal.
  apply flat_map_preorder_mapRanges.
  apply Forall_forall. intros n _. apply preorder_mapRanges.
Qed.

(** X11: the findings follow the spans and nothing else of a finding
    depends on them.  On the same tree with other spans the scan gives as
    many findings, in the same order and with the same messages, each at
    the new span of its operand; with all positions moved by [d]
    characters, every finding is moved by [d]. *)
Theorem findings_follow_the_spans
    (f : ts.TextRange -> ts.TextRange) (d : nat)
    (root : ts.SourceFile) (config : Options) :
  scan (mapRangesOfSourceFile f root) config
  = map (mapFinding f) (scan root config)
  /\ map Lint.failure (scan (mapRangesOfSourceFile f root) config)
     = map Lint.failure (scan root config)
  /\ scan (mapRangesOfSourceFile (shiftBy d) root) config
     = map (fun x => Lint.mkRuleFailure (Lint.startPosition x + d)
                       (Lint.endPosition x + d) (Lint.failure x))
           (scan root config).
Proof.
  split; [apply scan_mapRanges|]. split.
  - rewrite scan_mapRanges, map_map. reflexivity.
  - rewrite scan_mapRanges. reflexivity.
Qed.

(** ** The result of the callback *)

Lemma visitNodes_cb_fold (cs : list ts.Node) :
  forall ctx,
    ts.visitNodes cb cs ctx
    = (None, fold_left (fun c n => snd (cb n c)) cs ctx).
Proof.
  induction cs as [|c cs IH]; intros ctx; [reflexivity|].
  simpl. unfold ts.orElse, ts.visitNode.
  rewrite (cb_spec c ctx). simpl. apply IH.
Qed.

(** X12: the callback returns [undefined] on every node and in every
    context, so that the walk never takes the early exit of
    [forEachChild]: on a list of children each one is visited, in the
    context the one before left.  A callback with a truthy result would
    stop the visit after the first child. *)
Theorem callback_never_stops_the_visit
    (node : ts.Node) (cs : list ts.Node) (ctx : Lint.WalkContext Options)
    (log : list ts.Node) :
  fst (cb node ctx) = None
  /\ ts.visitNodes cb cs ctx
     = (None, fold_left (fun c n => snd (cb n c)) cs ctx)
  /\ ts.visitNodes (fun n visited => (Some tt, visited ++ [n])) (node :: cs) log
     = (Some tt, log ++ [node]).
Proof.
  split; [|split].
  - now rewrite cb_spec.
  - apply visitNodes_cb_fold.
  - reflexivity.
Qed.

Lemma findingsOf_flat_map_preorder (config : Options) (cs : list ts.Node) :
  findingsOf config (flat_map preorder cs)
  = List.concat (map (fun c => findingsOf config (preorder c)) cs).
Proof.
  induction cs as [|c cs IH]; [reflexivity|].
  simpl. now rewrite findingsOf_app, IH.
Qed.

(** X13: a node that is no binary expression adds nothing of its own and
    hides nothing: whatever its kind (parentheses, a block, a function, a
    call), the failures reported under it are the failures reported under
    its children, child after child, and the callback leaves a context
    unchanged on a token or an identifier. *)
Theorem other_nodes_are_transparent
    (k : ts.CompositeKind) (cs : list ts.Node) (range : ts.TextRange)
    (tk : ts.TokenKind) (t : string) (ctx : Lint.WalkContext Options) :
  failuresUnder ctx (ts.CompositeNode k cs range)
  = List.concat (map (failuresUnder ctx) cs)
  /\ cb (ts.TokenNode tk range) ctx = (None, ctx)
  /\ cb (ts.IdentifierNode t range) ctx = (None, ctx).
Proof.
  split; [|split; reflexivity].
  rewrite failuresUnder_spec. simpl preorder. rewrite findingsOf_cons.
  change (findingsAt (Lint.options ctx) (ts.CompositeNode k cs range))
    with (@nil Lint.RuleFailure).
  simpl app. rewrite findingsOf_flat_map_preorder.
  f_equal. apply map_ext. intros c. now rewrite failuresUnder_spec.
Qed.
